(** * AnalystPortal: the TravelDataAnalyst component

    A shallow embedding of [src/AnalystPortal.js]: the data types of the
    component, the currency display helper [formatCurrency], the React state
    of [TravelDataAnalyst] and its handlers [onFileChange], [removeFile] and
    [processDocuments], followed by the properties of that code.

    Conventions.
    - A JavaScript string is a [string], one character a code unit; a
      JavaScript number is the rational it denotes ([Q]): the component
      does no arithmetic on numbers.
    - A handler reads the state cells as they are when its event arrives
      (the component has re-rendered since the event before), and a
      functional update [setFiles(prev => ...)] applies to the cell as it
      is then.
    - [undefined]/[null] is [None].
    - A thrown value is an [Exn]; [try]/[catch] is the error monad
      [Exn + A] ([inl] thrown, [inr] returned).
    - The browser and the remote model are the [World] of a run: what
      [FileReader], the [GoogleGenAI] client and [JSON.parse] answer. *)

From Stdlib Require Import String Ascii List Bool Arith ZArith QArith Lia.
Import ListNotations.
Close Scope Q_scope.
Local Open Scope nat_scope.
Local Open Scope string_scope.
Local Open Scope list_scope.

Set Warnings "-register-all".

(** ** JSON values and the response schema *)

Module Json.

(** A value as [JSON.parse] returns it.  An object keeps its members in
    an association list. *)
Inductive JSON : Type :=
| JNull
| JBool (b : bool)
| JNum (q : Q)
| JStr (s : string)
| JArr (items : list JSON)
| JObj (members : list (string * JSON)).

Fixpoint assoc (k : string) (ms : list (string * JSON)) : option JSON :=
  match ms with
  | [] => None
  | (k', v) :: ms' => if String.eqb k k' then Some v else assoc k ms'
  end.

(** [v.k]: the member [k] of an object, [undefined] otherwise. *)
Definition get (k : string) (v : JSON) : option JSON :=
  match v with
  | JObj ms => assoc k ms
  | _ => None
  end.

(** The elements of [v.k] when that is an array. *)
Definition elements (k : string) (v : JSON) : list JSON :=
  match get k v with
  | Some (JArr l) => l
  | _ => []
  end.

(** The [Type.*] schema language of the [responseSchema] literal. *)
Inductive Schema : Type :=
| STRING (description : option string) (enum : option (list string))
| NUMBER
| BOOLEAN
| ARRAY (items : Schema)
| OBJECT (properties : list (string * Schema)) (required : list string).

Definition present (k : string) (ms : list (string * JSON)) : bool :=
  match assoc k ms with Some _ => true | None => false end.

(** [conforms s v]: the value has the shape the schema describes: the
    right kind at every level, every required member present, every
    declared member that is present of its declared shape, an enumerated
    string among its literals. *)
Fixpoint conforms (s : Schema) (v : JSON) {struct s} : bool :=
  match s, v with
  | STRING _ None, JStr _ => true
  | STRING _ (Some lits), JStr x => existsb (String.eqb x) lits
  | NUMBER, JNum _ => true
  | BOOLEAN, JBool _ => true
  | ARRAY it, JArr l => forallb (conforms it) l
  | OBJECT props req, JObj ms =>
      forallb (fun k => present k ms) req
      && (fix members (ps : list (string * Schema)) : bool :=
            match ps with
            | [] => true
            | (k, sk) :: ps' =>
                match assoc k ms with
                | Some x => conforms sk x
                | None => true
                end && members ps'
            end) props
  | _, _ => false
  end.

End Json.
Import Json.

(** ** Types *)

Record Room : Type := { type : string; room_price : Q }.

Record Activity : Type := { name : string; price : Q; isIncluded : bool }.

Inductive LocationType : Type := Component | Bundle.

Record Resort : Type := {
  resortName : string;
  currency : string;
  locationType : LocationType;
  rooms : list Room;
  activities : list Activity
}.

Record LocationData : Type := { loc_name : string; resorts : list Resort }.

Record ExtractionResult : Type := { locations : list LocationData }.

(** The browser's [File]: a name, a size and the content. *)
Record File : Type := { file_name : string; size : N; content : string }.

(** The four literals of [FileWithStatus.status]. *)
Module Status.
Inductive t : Type := pending | processing | completed | error.

Definition eqb (a b : t) : bool :=
  match a, b with
  | pending, pending | processing, processing
  | completed, completed | error, error => true
  | _, _ => false
  end.
End Status.

Record FileWithStatus : Type :=
  { file : File; id : string; status : Status.t }.

(** *** The typed values as JSON

    [as ExtractionResult] is a cast: the component holds the parsed JSON
    value itself.  A value of the declared type is this JSON value. *)

Definition locationType_string (t : LocationType) : string :=
  match t with Component => "Component" | Bundle => "Bundle" end.

Definition Room_json (r : Room) : JSON :=
  JObj [("type", JStr (type r)); ("price", JNum (room_price r))].

Definition Activity_json (a : Activity) : JSON :=
  JObj [("name", JStr (name a)); ("price", JNum (price a));
        ("isIncluded", JBool (isIncluded a))].

Definition Resort_json (r : Resort) : JSON :=
  JObj [("resortName", JStr (resortName r));
        ("currency", JStr (currency r));
        ("locationType", JStr (locationType_string (locationType r)));
        ("rooms", JArr (map Room_json (rooms r)));
        ("activities", JArr (map Activity_json (activities r)))].

Definition LocationData_json (l : LocationData) : JSON :=
  JObj [("name", JStr (loc_name l));
        ("resorts", JArr (map Resort_json (resorts l)))].

Definition ExtractionResult_json (e : ExtractionResult) : JSON :=
  JObj [("locations", JArr (map LocationData_json (locations e)))].

(** ** Utils *)

(** A thrown value; [message] is its [.message] when it has one. *)
Record Exn : Type := { message : option string }.

Definition Result (A : Type) : Type := (Exn + A)%type.

Definition bind {A B : Type} (c : Result A) (k : A -> Result B) : Result B :=
  match c with
  | inl e => inl e
  | inr a => k a
  end.

Notation "x <- c ;; k" := (bind c (fun x => k))
  (at level 61, c at next level, right associativity).

(** [a || b] on strings: the empty string and [undefined] are falsy. *)
Definition or_else (a : option string) (b : string) : string :=
  match a with
  | Some s => if String.eqb s "" then b else s
  | None => b
  end.

(** The pieces of [s.split(',')]. *)
Fixpoint split_comma (s : string) : list string :=
  match s with
  | EmptyString => [""]
  | String c s' =>
      if Ascii.eqb c "," then "" :: split_comma s'
      else match split_comma s' with
           | [] => [String c ""]
           | p :: ps => String c p :: ps
           end
  end.

(** What the browser and the remote model answer during one run. *)
Record Response : Type := { text : option string }.

Inductive Part : Type :=
| TextPart (t : string)
| InlineData (mimeType : string) (data : option string).

Record Request : Type := {
  model : string;
  contents : list Part;
  responseMimeType : string;
  responseSchema : Schema
}.

Record World : Type := {
  (** [reader.readAsDataURL(file)]: the data URL handed to [onload], or
      the event handed to [onerror]. *)
  readAsDataURL : File -> Result string;
  (** [new GoogleGenAI(...)]: [Some e] when the constructor throws [e]. *)
  newGoogleGenAI : option Exn;
  (** [ai.models.generateContent(request)]. *)
  generateContent : Request -> Result Response;
  (** [JSON.parse(text)]: the value, or the [SyntaxError]. *)
  JSON_parse : string -> Result JSON
}.

Definition fileToBase64 (w : World) (f : File) : Result (option string) :=
  dataURL <- readAsDataURL w f ;;
  inr (nth_error (split_comma dataURL) 1).

(** *** formatCurrency *)

(** What [formatCurrency] returns: the string
    [new Intl.NumberFormat('en-US', {style: 'currency', currency: code}).format(amount)],
    or the template string [`${currency} ${amount}`].  Both are kept as
    terms: the digits of a number and the locale data are the runtime's. *)
Inductive Display : Type :=
| IntlCurrency (code : string) (amount : Q)
| Template (currency : option string) (amount : Q).

Definition is_ascii_letter (c : ascii) : bool :=
  let n := nat_of_ascii c in
  ((65 <=? n)%nat && (n <=? 90)%nat) || ((97 <=? n)%nat && (n <=? 122)%nat).

Fixpoint all_letters (s : string) : bool :=
  match s with
  | EmptyString => true
  | String c s' => is_ascii_letter c && all_letters s'
  end.

(** ECMA-402 IsWellFormedCurrencyCode: three code units, each an ASCII
    letter of either case. *)
Definition IsWellFormedCurrencyCode (code : string) : bool :=
  (String.length code =? 3)%nat && all_letters code.

(** The [NumberFormat] constructor throws a [RangeError] on a code that is
    not well formed; [format] itself never throws. *)
Definition NumberFormat (code : string) : Result (Q -> Display) :=
  if IsWellFormedCurrencyCode code then inr (IntlCurrency code)
  else inl {| message := Some "Invalid currency code" |}.

Section FormatCurrency.

(** [String.prototype.toUpperCase], the runtime's Unicode case mapping. *)
Variable toUpperCase : string -> string.

Definition currency_code (currency : option string) : string :=
  or_else (option_map toUpperCase currency) "USD".

Definition formatCurrency (amount : Q) (currency : option string) : Display :=
  let code := currency_code currency in
  match NumberFormat (if (String.length code =? 3)%nat then code else "USD") with
  | inr fmt => fmt amount
  | inl _ => Template currency amount
  end.

End FormatCurrency.

(** Upper-casing of ASCII text, where [toUpperCase] is this function. *)
Definition ascii_upper (c : ascii) : ascii :=
  let n := nat_of_ascii c in
  if ((97 <=? n)%nat && (n <=? 122)%nat) then ascii_of_nat (n - 32) else c.

Fixpoint ascii_toUpperCase (s : string) : string :=
  match s with
  | EmptyString => EmptyString
  | String c s' => String (ascii_upper c) (ascii_toUpperCase s')
  end.

(** ** Components: TravelDataAnalyst *)

Inductive Tab : Type := preview | json.

(** The [useState] cells of the component. *)
Record State : Type := {
  files : list FileWithStatus;
  isProcessing : bool;
  result : option JSON;
  error : option string;
  activeTab : Tab
}.

Definition initial : State :=
  {| files := []; isProcessing := false; result := None; error := None;
     activeTab := preview |}.

Definition setFiles (f : list FileWithStatus -> list FileWithStatus)
    (st : State) : State :=
  {| files := f (files st); isProcessing := isProcessing st;
     result := result st; error := error st; activeTab := activeTab st |}.

Definition setIsProcessing (b : bool) (st : State) : State :=
  {| files := files st; isProcessing := b;
     result := result st; error := error st; activeTab := activeTab st |}.

Definition setResult (r : option JSON) (st : State) : State :=
  {| files := files st; isProcessing := isProcessing st;
     result := r; error := error st; activeTab := activeTab st |}.

Definition setError (e : option string) (st : State) : State :=
  {| files := files st; isProcessing := isProcessing st;
     result := result st; error := e; activeTab := activeTab st |}.

Definition setActiveTab (t : Tab) (st : State) : State :=
  {| files := files st; isProcessing := isProcessing st;
     result := result st; error := error st; activeTab := t |}.

(** [onFileChange]: [picked] is [e.target.files] ([None] when null), each
    file paired with the id [Math.random] draws for it. *)
Definition onFileChange (picked : option (list (File * string)))
    (st : State) : State :=
  match picked with
  | Some fs =>
      let newFiles :=
        map (fun f => {| file := fst f; id := snd f;
                          status := Status.pending |}) fs in
      setFiles (fun prev => prev ++ newFiles) st
  | None => st
  end.

Definition removeFile (i : string) (st : State) : State :=
  setFiles (fun prev => filter (fun f => negb (String.eqb (id f) i)) prev) st.

Definition dquote : string := String (ascii_of_nat 34) "".

Definition systemPrompt : string :=
  "You are a Senior Data Analyst. Convert the uploaded travel PDF documents into a single, structured JSON database.

EXTRACTION RULES:
1. Location: Identify the country/location for each PDF.
2. Resorts: Group all data by Resort Name.
3. The 'Finland' Rule: In Finland PDFs, room rates and activities are often bundled. Extract the bundle price as the 'price' in the rooms array. List the included activities with a price of 0 and isIncluded=true.
4. The 'Maldives' Rule: Extract the room price and separate activities (like transfers, excursions, supplements) with their individual prices. isIncluded=false unless explicitly stated as part of the room rate.
5. Currency: Identify the currency for each resort (e.g., USD, EUR, AUD).
6. Stay Logic: Ensure 'Stay' costs (rooms) are clearly identified, as these are the only items subject to discounts.
7. Output: Strict JSON format matching the schema provided.

The locationType should be " ++ dquote ++ "Bundle" ++ dquote
  ++ " if the Finland Rule is applied, and " ++ dquote ++ "Component" ++ dquote
  ++ " if the Maldives Rule is applied.".

Definition roomSchema : Schema :=
  OBJECT [("type", STRING (Some "Room/Package Name") None);
          ("price", NUMBER)]
         ["type"; "price"].

Definition activitySchema : Schema :=
  OBJECT [("name", STRING (Some "Activity/Service Name") None);
          ("price", NUMBER);
          ("isIncluded", BOOLEAN)]
         ["name"; "price"; "isIncluded"].

Definition resortSchema : Schema :=
  OBJECT [("resortName", STRING None None);
          ("currency", STRING (Some "3-letter ISO code or symbol") None);
          ("locationType", STRING None (Some ["Component"; "Bundle"]));
          ("rooms", ARRAY roomSchema);
          ("activities", ARRAY activitySchema)]
         ["resortName"; "currency"; "locationType"; "rooms"; "activities"].

Definition locationSchema : Schema :=
  OBJECT [("name", STRING (Some "Location Name (e.g., Maldives, Finland)") None);
          ("resorts", ARRAY resortSchema)]
         ["name"; "resorts"].

(** The [responseSchema] literal of the [generateContent] call. *)
Definition extractionSchema : Schema :=
  OBJECT [("locations", ARRAY locationSchema)] ["locations"].

(** The loop [for (const f of files)]: one [inlineData] part a file, in
    order; the first rejected read ends the loop. *)
Fixpoint pushFiles (w : World) (fs : list FileWithStatus)
    (parts : list Part) : Result (list Part) :=
  match fs with
  | [] => inr parts
  | f :: fs' =>
      base64 <- fileToBase64 w (file f) ;;
      pushFiles w fs' (parts ++ [InlineData "application/pdf" base64])
  end.

Definition request (parts : list Part) : Request :=
  {| model := "gemini-3-pro-preview";
     contents := parts;
     responseMimeType := "application/json";
     responseSchema := extractionSchema |}.

(** The body of the [try] block up to [JSON.parse]: the value bound to
    [extractedData], or what was thrown on the way. *)
Definition extraction (w : World) (fs : list FileWithStatus) : Result JSON :=
  _ <- match newGoogleGenAI w with Some e => inl e | None => inr tt end ;;
  parts <- pushFiles w fs [TextPart systemPrompt] ;;
  response <- generateContent w (request parts) ;;
  JSON_parse w (or_else (text response) "{}").

Definition failureMessage : string :=
  "Failed to extract data. Ensure the files are valid PDFs and your API key is correct.".

Definition markCompleted (f : FileWithStatus) : FileWithStatus :=
  {| file := file f; id := id f; status := Status.completed |}.

(** An invocation of [processDocuments] that has passed the length test
    and not yet reached its [finally]: [run_files] is the [files] array
    its closure holds. *)
Record Run : Type := { run_files : list FileWithStatus }.

(** The component: its state cells and the invocations in flight. *)
Record Portal : Type := { state : State; inflight : list Run }.

Definition mounted : Portal := {| state := initial; inflight := [] |}.

(** [processDocuments], from the call to the first [await]. *)
Definition processDocuments (p : Portal) : Portal :=
  let st := state p in
  if (List.length (files st) =? 0)%nat then p
  else {| state := setResult None (setError None (setIsProcessing true st));
          inflight := inflight p ++ [ {| run_files := files st |} ] |}.

(** [processDocuments], the rest: the state updates of the [try] block
    after [JSON.parse], of [catch] and of [finally], applied to the state
    cells as they are when the invocation resumes. *)
Definition resume (w : World) (r : Run) (st : State) : State :=
  setIsProcessing false
    match extraction w (run_files r) with
    | inr extractedData =>
        setFiles (fun prev => map markCompleted prev)
                 (setResult (Some extractedData) st)
    | inl err =>
        setError (Some (or_else (message err) failureMessage)) st
    end.

(** The [disabled] attribute of the run button. *)
Definition runDisabled (st : State) : bool :=
  (List.length (files st) =? 0)%nat || isProcessing st.

Fixpoint drop_nth {A : Type} (n : nat) (l : list A) : list A :=
  match l, n with
  | [], _ => []
  | _ :: l', O => l'
  | x :: l', S n' => x :: drop_nth n' l'
  end.

(** What happens to a mounted component. *)
Inductive Event : Type :=
| ChooseFiles (picked : option (list (File * string)))
| ClickRemove (i : string)
| ClickRun
| Settle (n : nat) (w : World)
| ClickReset
| ClickTab (t : Tab)
| ClickExport.

Definition handle (p : Portal) (e : Event) : Portal :=
  match e with
  | ChooseFiles picked =>
      {| state := onFileChange picked (state p); inflight := inflight p |}
  | ClickRemove i =>
      {| state := removeFile i (state p); inflight := inflight p |}
  | ClickRun => if runDisabled (state p) then p else processDocuments p
  | Settle n w =>
      match nth_error (inflight p) n with
      | Some r => {| state := resume w r (state p);
                     inflight := drop_nth n (inflight p) |}
      | None => p
      end
  | ClickReset =>
      {| state := setError None (state p); inflight := inflight p |}
  | ClickTab t =>
      {| state := setActiveTab t (state p); inflight := inflight p |}
  | ClickExport => p
  end.

(** The component after a sequence of events, oldest first. *)
Definition after (evs : list Event) : Portal := fold_left handle evs mounted.

(** ** Properties read off a result

    The shape properties the published value is checked against. *)

Definition locationsOf (v : JSON) : list JSON := elements "locations" v.

Definition resortsOf (v : JSON) : list JSON :=
  flat_map (elements "resorts") (locationsOf v).

(** [v.locations.length], when [v.locations] is an array. *)
Definition locationsSize (v : JSON) : option nat :=
  match get "locations" v with
  | Some (JArr l) => Some (List.length l)
  | _ => None
  end.

(** Some location carries at least one resort. *)
Definition nonemptyCandidate (v : JSON) : bool :=
  existsb (fun l => negb (List.length (elements "resorts" l) =? 0)%nat)
          (locationsOf v).

(** An activity with [isIncluded = true] and [price > 0]. *)
Definition includedAtAPrice (a : JSON) : bool :=
  match get "isIncluded" a, get "price" a with
  | Some (JBool true), Some (JNum q) => negb (Qle_bool q 0)
  | _, _ => false
  end.

Definition isBundle (r : JSON) : bool :=
  match get "locationType" r with
  | Some (JStr t) => String.eqb t "Bundle"
  | _ => false
  end.

(** The classification invariant of one resort, and of a whole result. *)
Definition bundleConsistent (r : JSON) : bool :=
  if isBundle r
  then forallb (fun a => negb (includedAtAPrice a)) (elements "activities" r)
  else true.

Definition classificationInvariant (v : JSON) : bool :=
  forallb bundleConsistent (resortsOf v).

(** A status the component assigns. *)
Definition assigned (s : Status.t) : Prop :=
  s = Status.pending \/ s = Status.completed.

(** ** Sample worlds *)

(** A JSON text written with single quotes for readability: every ['] stands
    for the double quote of the text. *)
Fixpoint js (s : string) : string :=
  match s with
  | EmptyString => EmptyString
  | String c s' =>
      String (if Ascii.eqb c "'" then ascii_of_nat 34 else c) (js s')
  end.

Definition SyntaxError : Exn := {| message := Some "Unexpected token" |}.

(** [JSON.parse] restricted to the texts of a table; any other text is
    taken as malformed. *)
Fixpoint parseTable (table : list (string * JSON)) (t : string) : Result JSON :=
  match table with
  | [] => inl SyntaxError
  | (t', v) :: table' =>
      if String.eqb t t' then inr v else parseTable table' t
  end.

(** A browser in which every file reads (as the data URL of [%PDF-1], the
    content of the sample files), the client constructs and the model
    answers [reply]; [JSON.parse] knows [{}] and the texts of [table]. *)
Definition browser (reply : Result Response) (table : list (string * JSON))
    : World :=
  {| readAsDataURL := fun _ => inr "data:application/pdf;base64,JVBERi0x";
     newGoogleGenAI := None;
     generateContent := fun _ => reply;
     JSON_parse := parseTable (("{}", JObj []) :: table) |}.

(** The model answers with text [t], which parses to [v]. *)
Definition answering (t : string) (v : JSON) : World :=
  browser (inr {| text := Some t |}) [(t, v)].

(** The call to the model is rejected. *)
Definition unreachable : World :=
  browser (inl {| message := Some "Failed to fetch" |}) [].

Definition brochure : File :=
  {| file_name := "finland.pdf"; size := 6%N; content := "%PDF-1" |}.

Definition priceList : File :=
  {| file_name := "maldives.pdf"; size := 6%N; content := "%PDF-1" |}.

(** Scenario A's resort as the model may return it: a bundle whose spa is
    marked included and still carries a price. *)
Definition resortX : Resort :=
  {| resortName := "Resort X"; currency := "EUR"; locationType := Bundle;
     rooms := [ {| type := "Winter package"; room_price := 500%Q |} ];
     activities :=
       [ {| name := "breakfast"; price := 0%Q; isIncluded := true |};
         {| name := "spa"; price := 50%Q; isIncluded := true |} ] |}.

Definition finland : ExtractionResult :=
  {| locations := [ {| loc_name := "Finland"; resorts := [resortX] |} ] |}.

Definition finlandText : string :=
  js "{'locations':[{'name':'Finland','resorts':[{'resortName':'Resort X','currency':'EUR','locationType':'Bundle','rooms':[{'type':'Winter package','price':500}],'activities':[{'name':'breakfast','price':0,'isIncluded':true},{'name':'spa','price':50,'isIncluded':true}]}]}]}".

(** Scenario C's candidate: the resort has no [currency] member. *)
Definition maldivesNoCurrency : JSON :=
  JObj [("locations", JArr [
    JObj [("name", JStr "Maldives");
          ("resorts", JArr [
            JObj [("resortName", JStr "Resort Y");
                  ("locationType", JStr "Component");
                  ("rooms", JArr [JObj [("type", JStr "room");
                                        ("price", JNum 300%Q)]]);
                  ("activities", JArr [JObj [("name", JStr "airport transfer");
                                             ("price", JNum 50%Q);
                                             ("isIncluded", JBool false)]])]])]])].

Definition maldivesNoCurrencyText : string :=
  js "{'locations':[{'name':'Maldives','resorts':[{'resortName':'Resort Y','locationType':'Component','rooms':[{'type':'room','price':300}],'activities':[{'name':'airport transfer','price':50,'isIncluded':false}]}]}]}".

(** The empty candidate. *)
Definition noLocations : JSON := JObj [("locations", JArr [])].

Definition noLocationsText : string := js "{'locations':[]}".

(** ** Invariants of the component *)

Definition statusesAssigned (st : State) : Prop :=
  Forall (fun f => assigned (status f)) (files st).

(** One run at a time from the page: the run button is the only caller
    of [processDocuments], and it is disabled while [isProcessing] holds. *)
Definition singleFlight (p : Portal) : Prop :=
  match inflight p with
  | [] => isProcessing (state p) = false
  | [_] => isProcessing (state p) = true /\ result (state p) = None
  | _ => False
  end.

(** ** Sample sessions *)

Definition upload (f : File) (i : string) : Event :=
  ChooseFiles (Some [(f, i)]).

(** One brochure chosen and the run button clicked: a run is in flight. *)
Definition running : Portal := after [upload brochure "k3x9q2m1a"; ClickRun].

Definition brochureRun : Run :=
  {| run_files := [ {| file := brochure; id := "k3x9q2m1a";
                       status := Status.pending |} ] |}.

Definition finlandWorld : World :=
  answering finlandText (ExtractionResult_json finland).

Definition noCurrencyWorld : World :=
  answering maldivesNoCurrencyText maldivesNoCurrency.

Definition noLocationsWorld : World := answering noLocationsText noLocations.

Definition publishedOnce : Portal :=
  after [upload brochure "k3x9q2m1a"; ClickRun; Settle 0 finlandWorld].

(** The model cannot be reached: the run fails. *)
Definition failedOnce : Portal :=
  after [upload brochure "k3x9q2m1a"; ClickRun; Settle 0 unreachable].


Definition noCurrencyPublished : Portal :=
  after [upload priceList "w8r2t5y7u"; ClickRun; Settle 0 noCurrencyWorld].

Definition noLocationsPublished : Portal :=
  after [upload brochure "k3x9q2m1a"; ClickRun; Settle 0 noLocationsWorld].

Definition rerun : list Event :=
  [upload brochure "k3x9q2m1a"; ClickRun; Settle 0 finlandWorld; ClickRun].

(** ** The view

    The conditions under which the [return] of the component renders each
    part, and the reads the preview makes of the published value. *)

(** JavaScript truthiness of a parsed value. *)
Definition truthy (v : JSON) : bool :=
  match v with
  | JNull => false
  | JBool b => b
  | JNum q => negb (Qeq_bool q 0)
  | JStr s => negb (String.eqb s "")
  | JArr _ | JObj _ => true
  end.

(** [{result && ...}]: the export button and the result panel. *)
Definition resultShown (st : State) : bool :=
  match result st with
  | Some v => truthy v
  | None => false
  end.

(** [{error && ...}]. *)
Definition errorShown (st : State) : bool :=
  match error st with
  | Some m => negb (String.eqb m "")
  | None => false
  end.


(** [{!result && !isProcessing && !error && ...}]. *)
Definition standbyShown (st : State) : bool :=
  negb (resultShown st) && negb (isProcessing st) && negb (errorShown st).


(** A value React accepts as a child: a plain object is refused, an array
    is rendered element by element. *)
Fixpoint validChild (v : JSON) : bool :=
  match v with
  | JObj _ => false
  | JArr l => forallb validChild l
  | _ => true
  end.

(** [{x.k}]: the member as a child; [undefined] renders nothing. *)
Definition childOf (k : string) (x : JSON) : bool :=
  match get k x with
  | Some v => validChild v
  | None => true
  end.

(** [x.k.map(body)]: [x.k] has to be an array, and [body] must not throw
    on any element. *)
Definition mapOver (k : string) (x : JSON) (body : JSON -> bool) : bool :=
  match get k x with
  | Some (JArr l) => forallb body l
  | _ => false
  end.

(** Reading a member of [null] throws. *)
Definition notNull (x : JSON) : bool :=
  match x with JNull => false | _ => true end.

Definition previewRoom (room : JSON) : bool :=
  notNull room && childOf "type" room.

Definition previewActivity (act : JSON) : bool :=
  notNull act && childOf "name" act.

Definition previewResort (resort : JSON) : bool :=
  notNull resort
  && childOf "resortName" resort
  && childOf "locationType" resort
  && childOf "currency" resort
  && mapOver "rooms" resort previewRoom
  && mapOver "activities" resort previewActivity.

Definition previewLocation (loc : JSON) : bool :=
  notNull loc && childOf "name" loc && mapOver "resorts" loc previewResort.

(** The preview tab renders [result] without throwing. *)
Definition previewRenders (v : JSON) : bool :=
  mapOver "locations" v previewLocation.

(** The result panel renders without a throw: the preview tab maps over
    the published value, the other tab prints it with [JSON.stringify]. *)
Definition resultPanelRenders (st : State) : bool :=
  match result st with
  | Some v =>
      if truthy v
      then match activeTab st with
           | preview => previewRenders v
           | json => true
           end
      else true
  | None => true
  end.


(** ** More invariants and samples *)

Fixpoint no_comma (s : string) : bool :=
  match s with
  | EmptyString => true
  | String c s' => negb (Ascii.eqb c ",") && no_comma s'
  end.

(** The events that neither start nor settle a run. *)
Definition passive (e : Event) : bool :=
  match e with
  | ClickRun | Settle _ _ => false
  | _ => true
  end.

(** While a run is in flight the result and error cells are empty; at
    rest at most one of the two is filled. *)
Definition onePanel (p : Portal) : Prop :=
  match inflight p with
  | [] => isProcessing (state p) = false
          /\ (result (state p) = None \/ error (state p) = None)
  | [_] => isProcessing (state p) = true
           /\ result (state p) = None /\ error (state p) = None
  | _ => False
  end.

(** A browser in which the second file cannot be read. *)
Definition secondUnreadable : World :=
  {| readAsDataURL := fun f =>
       if String.eqb (file_name f) "maldives.pdf"
       then inl {| message := None |}
       else inr "data:application/pdf;base64,JVBERi0x";
     newGoogleGenAI := None;
     generateContent := fun _ => inr {| text := Some finlandText |};
     JSON_parse := parseTable [(finlandText, ExtractionResult_json finland)] |}.

Definition twoFiles : list FileWithStatus :=
  [ {| file := brochure; id := "k3x9q2m1a"; status := Status.pending |};
    {| file := priceList; id := "w8r2t5y7u"; status := Status.pending |} ].

(** [bareURL] below, with a [JSON.parse] that differs on the empty text. *)
Definition lenientParse : World :=
  {| readAsDataURL := fun _ => inr "blob:finland";
     newGoogleGenAI := None;
     generateContent := fun _ => inr {| text := None |};
     JSON_parse := fun t =>
       if String.eqb t "" then inr JNull
       else parseTable [("{}", JObj [])] t |}.

(** A browser whose reader hands back a URL without a comma. *)
Definition bareURL : World :=
  {| readAsDataURL := fun _ => inr "blob:finland";
     newGoogleGenAI := None;
     generateContent := fun _ => inr {| text := None |};
     JSON_parse := parseTable [("{}", JObj [])] |}.

(** ** Lemmas on the handlers *)

Lemma files_setIsProcessing b st : files (setIsProcessing b st) = files st.
Proof. reflexivity. Qed.

Lemma resume_returned w r st v :
  extraction w (run_files r) = inr v ->
  resume w r st =
  {| files := map markCompleted (files st); isProcessing := false;
     result := Some v; error := error st; activeTab := activeTab st |}.
Proof. intros E. unfold resume. rewrite E. reflexivity. Qed.

Lemma resume_thrown w r st e :
  extraction w (run_files r) = inl e ->
  resume w r st =
  {| files := files st; isProcessing := false; result := result st;
     error := Some (or_else (message e) failureMessage);
     activeTab := activeTab st |}.
Proof. intros E. unfold resume. rewrite E. reflexivity. Qed.

Lemma handle_Settle p n w r :
  nth_error (inflight p) n = Some r ->
  handle p (Settle n w) =
  {| state := resume w r (state p); inflight := drop_nth n (inflight p) |}.
Proof. intros E. simpl. rewrite E. reflexivity. Qed.

(** The stages of the [try] block: the first that throws decides. *)
Lemma extraction_stages w fs parts response :
  newGoogleGenAI w = None ->
  pushFiles w fs [TextPart systemPrompt] = inr parts ->
  generateContent w (request parts) = inr response ->
  extraction w fs = JSON_parse w (or_else (text response) "{}").
Proof.
  intros C P G. unfold extraction. rewrite C, P. simpl. rewrite G.
  reflexivity.
Qed.

Lemma markCompleted_status f : status (markCompleted f) = Status.completed.
Proof. reflexivity. Qed.

Lemma all_markCompleted fs :
  Forall (fun f => status f = Status.completed) (map markCompleted fs).
Proof.
  induction fs as [|f fs IH]; simpl; constructor; auto.
Qed.

(** An invariant of the state cells that every handler keeps holds after
    every sequence of events. *)
Lemma after_invariant (I : Portal -> Prop) :
  I mounted ->
  (forall p e, I p -> I (handle p e)) ->
  forall evs, I (after evs).
Proof.
  intros H0 Hstep evs. unfold after.
  assert (G : forall p, I p -> I (fold_left handle evs p)).
  { induction evs as [|e evs IH]; intros p Hp; simpl; auto. }
  apply G, H0.
Qed.

Lemma onFileChange_assigned picked st :
  statusesAssigned st -> statusesAssigned (onFileChange picked st).
Proof.
  unfold statusesAssigned. destruct picked as [fs|]; simpl; auto.
  intros H. apply Forall_app. split; auto.
  induction fs as [|f fs IH]; simpl; constructor; auto.
  left. reflexivity.
Qed.

Lemma removeFile_assigned i st :
  statusesAssigned st -> statusesAssigned (removeFile i st).
Proof.
  unfold statusesAssigned, removeFile. simpl. intros H.
  rewrite Forall_forall in *. intros f Hf.
  apply filter_In in Hf. apply H. tauto.
Qed.

Lemma processDocuments_assigned p :
  statusesAssigned (state p) -> statusesAssigned (state (processDocuments p)).
Proof.
  unfold processDocuments.
  destruct (List.length (files (state p)) =? 0)%nat; auto.
Qed.

Lemma resume_assigned w r st :
  statusesAssigned st -> statusesAssigned (resume w r st).
Proof.
  unfold statusesAssigned, resume. intros H.
  destruct (extraction w (run_files r)) as [e|v]; simpl; auto.
  eapply Forall_impl; [|apply all_markCompleted].
  intros f Hf. right. exact Hf.
Qed.

Lemma handle_assigned p e :
  statusesAssigned (state p) -> statusesAssigned (state (handle p e)).
Proof.
  intros H. destruct e as [picked|i| |n w| |t|]; simpl; auto.
  - apply onFileChange_assigned, H.
  - apply removeFile_assigned, H.
  - destruct (runDisabled (state p)); auto using processDocuments_assigned.
  - destruct (nth_error (inflight p) n) as [r|]; simpl; auto.
    apply resume_assigned, H.
Qed.

Lemma handle_singleFlight p e : singleFlight p -> singleFlight (handle p e).
Proof.
  unfold singleFlight. intros H.
  destruct e as [picked|i| |n w| |t|]; simpl; auto.
  - destruct picked; exact H.
  - unfold runDisabled, processDocuments.
    destruct (List.length (files (state p)) =? 0)%nat; simpl; auto.
    destruct (isProcessing (state p)) eqn:B; simpl.
    + destruct (inflight p) as [|r [|r' l]]; rewrite ?B; exact H.
    + destruct (inflight p) as [|r [|r' l]]; simpl.
      * split; reflexivity.
      * destruct H; congruence.
      * contradiction.
  - destruct (inflight p) as [|r [|r' l]] eqn:L.
    + destruct n; simpl; rewrite L; exact H.
    + destruct n as [|n]; simpl.
      * reflexivity.
      * destruct n; simpl; rewrite L; exact H.
    + contradiction.
Qed.

Lemma after_singleFlight evs : singleFlight (after evs).
Proof.
  apply after_invariant with (I := singleFlight).
  - reflexivity.
  - intros p e. apply handle_singleFlight.
Qed.

Lemma nonemptyCandidate_size v :
  nonemptyCandidate v = true -> locationsSize v <> Some 0.
Proof.
  unfold nonemptyCandidate, locationsOf, elements, locationsSize.
  destruct (get "locations" v) as [[| | | |l|]|]; simpl; try discriminate.
  destruct l; simpl; discriminate.
Qed.

(** Every value of the declared type has the shape of the response
    schema. *)
Lemma Room_conforms r : conforms roomSchema (Room_json r) = true.
Proof. reflexivity. Qed.

Lemma Activity_conforms a : conforms activitySchema (Activity_json a) = true.
Proof. reflexivity. Qed.

Lemma forallb_map_conforms (A : Type) (s : Schema) (j : A -> JSON) :
  (forall a, conforms s (j a) = true) ->
  forall l, forallb (conforms s) (map j l) = true.
Proof.
  intros H l. induction l as [|a l IH]; simpl; auto.
  rewrite H, IH. reflexivity.
Qed.

Lemma Resort_conforms r : conforms resortSchema (Resort_json r) = true.
Proof.
  unfold resortSchema, Resort_json.
  destruct (locationType r); simpl;
    rewrite (forallb_map_conforms Room roomSchema Room_json Room_conforms),
            (forallb_map_conforms Activity activitySchema Activity_json Activity_conforms);
    reflexivity.
Qed.

Lemma LocationData_conforms l :
  conforms locationSchema (LocationData_json l) = true.
Proof.
  unfold locationSchema, LocationData_json. simpl.
  change (forallb (conforms resortSchema) (map Resort_json (resorts l)) && true
          = true).
  rewrite (forallb_map_conforms Resort resortSchema Resort_json Resort_conforms).
  reflexivity.
Qed.

Lemma ExtractionResult_conforms e :
  conforms extractionSchema (ExtractionResult_json e) = true.
Proof.
  unfold extractionSchema, ExtractionResult_json. simpl.
  change (forallb (conforms locationSchema)
            (map LocationData_json (locations e)) && true = true).
  rewrite (forallb_map_conforms LocationData locationSchema
             LocationData_json LocationData_conforms).
  reflexivity.
Qed.

(** ** Sample sessions, checked *)

Example running_inflight : inflight running = [brochureRun].
Proof. reflexivity. Qed.

Example running_state :
  isProcessing (state running) = true /\ result (state running) = None.
Proof. split; reflexivity. Qed.

Example finland_parsed :
  extraction (answering finlandText (ExtractionResult_json finland))
             (run_files brochureRun)
  = inr (ExtractionResult_json finland).
Proof. reflexivity. Qed.

Example unreachable_thrown :
  extraction unreachable (run_files brochureRun)
  = inl {| message := Some "Failed to fetch" |}.
Proof. reflexivity. Qed.

(** A response without text is read as the text [{}]. *)
Example no_text_parsed :
  extraction (browser (inr {| text := None |}) []) (run_files brochureRun)
  = inr (JObj []).
Proof. reflexivity. Qed.

Example split_dataURL :
  fileToBase64 unreachable brochure = inr (Some "JVBERi0x").
Proof. reflexivity. Qed.

(** ** The lifecycle of the files *)




(** No handler assigns [processing] or [error]: a file with one of these
    statuses after an event was in the list, with that status, before. *)
Lemma handle_never_assigns p e f :
  In f (files (state (handle p e))) ->
  status f = Status.processing \/ status f = Status.error ->
  In f (files (state p)).
Proof.
  intros Hin Hs.
  destruct e as [picked|i| |n w| |t|]; simpl in Hin; try exact Hin.
  - destruct picked as [fs|]; simpl in Hin; [|exact Hin].
    apply in_app_or in Hin. destruct Hin as [Hin|Hin]; [exact Hin|].
    apply in_map_iff in Hin. destruct Hin as (g & <- & _).
    destruct Hs as [Hs|Hs]; discriminate Hs.
  - apply filter_In in Hin. apply Hin.
  - destruct (runDisabled (state p)); [exact Hin|].
    unfold processDocuments in Hin.
    destruct (List.length (files (state p)) =? 0)%nat; exact Hin.
  - destruct (nth_error (inflight p) n) as [r|]; [|exact Hin].
    simpl in Hin. unfold resume in Hin.
    destruct (extraction w (run_files r)); simpl in Hin; [exact Hin|].
    apply in_map_iff in Hin. destruct Hin as (g & <- & _).
    destruct Hs as [Hs|Hs]; discriminate Hs.
Qed.

(** C9: after every sequence of events each file is [pending] or
    [completed]: choosing files adds them, in order, as [pending] behind
    the files there are; a successful run leaves every file in its place
    with its [File] and id and marks it [completed]; a failed run leaves
    the files alone; and no handler, in whatever state, assigns
    [processing] or [error]: a file in the list after an event is
    [pending], [completed], or was in the list as it is before. *)
Theorem statuses_pending_or_completed :
  (forall evs,
      Forall (fun f => status f = Status.pending
                       \/ status f = Status.completed)
             (files (state (after evs))))
  /\ (forall fs st,
        exists newFiles,
          files (onFileChange (Some fs) st) = files st ++ newFiles
          /\ map file newFiles = map fst fs
          /\ map id newFiles = map snd fs
          /\ Forall (fun f => status f = Status.pending) newFiles)
  /\ (forall w r st,
        match extraction w (run_files r) with
        | inr _ =>
            files (resume w r st) = map markCompleted (files st)
            /\ map file (files (resume w r st)) = map file (files st)
            /\ map id (files (resume w r st)) = map id (files st)
            /\ map status (files (resume w r st))
               = map (fun _ => Status.completed) (files st)
        | inl _ => files (resume w r st) = files st
        end)
  /\ (forall p e,
        Forall (fun f => status f = Status.pending
                         \/ status f = Status.completed
                         \/ In f (files (state p)))
               (files (state (handle p e)))).
Proof.
  split; [|split; [|split]].
  - intros evs.
    apply (after_invariant (fun p => statusesAssigned (state p))).
    + constructor.
    + intros p e. apply handle_assigned.
  - intros fs st. eexists. split; [reflexivity|]. split; [|split].
    + rewrite map_map. reflexivity.
    + rewrite map_map. reflexivity.
    + induction fs as [|f fs IH]; simpl; constructor; auto.
  - intros w r st. destruct (extraction w (run_files r)) as [e|v] eqn:X.
    + rewrite (resume_thrown w r st e X). reflexivity.
    + rewrite (resume_returned w r st v X). simpl.
      rewrite !map_map. repeat split.
  - intros p e. apply Forall_forall. intros f Hin.
    destruct (status f) eqn:S; auto;
      right; right; apply (handle_never_assigns p e f Hin); auto.
Qed.

(** C7, as the code has it: [removeFile] removes every file with the
    given id and keeps the others, whatever their status: the list that
    is left is the old list without the files of that id, the others in
    their order and as often as they occurred.  It touches no other state
    cell. *)
Theorem removeFile_any_status i st f :
  files (removeFile i st)
  = filter (fun g => negb (String.eqb (id g) i)) (files st)
  /\ (In f (files (removeFile i st)) <-> In f (files st) /\ id f <> i)
  /\ Forall (fun g => id g <> i) (files (removeFile i st))
  /\ isProcessing (removeFile i st) = isProcessing st
  /\ result (removeFile i st) = result st
  /\ error (removeFile i st) = error st
  /\ activeTab (removeFile i st) = activeTab st.
Proof.
  split; [reflexivity|]. split; [|split; [|repeat split]].
  - unfold removeFile. simpl. rewrite filter_In.
    rewrite negb_true_iff, String.eqb_neq. reflexivity.
  - unfold removeFile. simpl. apply Forall_forall. intros g Hg.
    apply filter_In in Hg. destruct Hg as [_ Hg].
    apply negb_true_iff, String.eqb_neq in Hg. exact Hg.
Qed.

(** C7 as stated fails: a file that a successful run has marked
    [completed] is removed by [removeFile]. *)
Lemma completed_file_removed :
  map status (files (state publishedOnce)) = [Status.completed]
  /\ map id (files (state publishedOnce)) = ["k3x9q2m1a"]
  /\ files (removeFile "k3x9q2m1a" (state publishedOnce)) = []
  /\ files (state (handle publishedOnce (ClickRemove "k3x9q2m1a"))) = [].
Proof. repeat split. Qed.

(** ** What a run publishes *)

(** C2, as the code has it: a run publishes the value the response text
    parses to, whatever its shape, and sets no error; a run in which
    something throws (the client, a file read, the call to the model or
    [JSON.parse]) publishes nothing and reports the message of what was
    thrown, or the fixed message when there is none.  No value is checked
    against the schema and no error has a kind. *)
Theorem run_publishes_unchecked p n w r :
  nth_error (inflight p) n = Some r ->
  let st' := state (handle p (Settle n w)) in
  match extraction w (run_files r) with
  | inr extractedData =>
      result st' = Some extractedData /\ error st' = error (state p)
  | inl err =>
      result st' = result (state p)
      /\ error st' = Some (or_else (message err) failureMessage)
  end
  /\ isProcessing st' = false.
Proof.
  intros E st'. subst st'. rewrite (handle_Settle p n w r E). cbn [state].
  destruct (extraction w (run_files r)) as [e|v] eqn:X.
  - rewrite (resume_thrown w r (state p) e X). repeat split.
  - rewrite (resume_returned w r (state p) v X). repeat split.
Qed.

Lemma run_publishes_unchecked_witness :
  nth_error (inflight running) 0 = Some brochureRun
  /\ result (state (handle running (Settle 0 noCurrencyWorld)))
     = Some maldivesNoCurrency.
Proof.
  split; [reflexivity|].
  exact (proj1 (proj1 (run_publishes_unchecked running 0 noCurrencyWorld
                         brochureRun eq_refl))).
Defined.

(** C2 as stated fails: a candidate whose resort has no [currency] does
    not have the shape of the schema, and the run publishes it, reports
    no error and marks the file [completed]. *)
Lemma missing_currency_published :
  conforms extractionSchema maldivesNoCurrency = false
  /\ result (state noCurrencyPublished) = Some maldivesNoCurrency
  /\ error (state noCurrencyPublished) = None
  /\ map status (files (state noCurrencyPublished)) = [Status.completed].
Proof. repeat split. Qed.

(** C3, as the code has it: the published result is the raw candidate
    itself.  No resort or activity is dropped or changed and no
    [locationType] is corrected, so the published result meets the Bundle
    invariant exactly when the raw candidate does. *)
Theorem published_is_candidate p n w r candidate :
  nth_error (inflight p) n = Some r ->
  extraction w (run_files r) = inr candidate ->
  exists published,
    result (state (handle p (Settle n w))) = Some published
    /\ published = candidate
    /\ resortsOf published = resortsOf candidate
    /\ map isBundle (resortsOf published) = map isBundle (resortsOf candidate)
    /\ classificationInvariant published = classificationInvariant candidate.
Proof.
  intros E X. exists candidate.
  rewrite (handle_Settle p n w r E). cbn [state].
  rewrite (resume_returned w r (state p) candidate X).
  repeat split.
Qed.

Lemma published_is_candidate_witness :
  nth_error (inflight running) 0 = Some brochureRun
  /\ extraction finlandWorld (run_files brochureRun)
     = inr (ExtractionResult_json finland)
  /\ exists published,
       result (state (handle running (Settle 0 finlandWorld)))
       = Some published
       /\ published = ExtractionResult_json finland
       /\ resortsOf published = resortsOf (ExtractionResult_json finland)
       /\ map isBundle (resortsOf published)
          = map isBundle (resortsOf (ExtractionResult_json finland))
       /\ classificationInvariant published
          = classificationInvariant (ExtractionResult_json finland).
Proof.
  split; [reflexivity|]. split; [reflexivity|].
  exact (published_is_candidate running 0 finlandWorld brochureRun
           (ExtractionResult_json finland) eq_refl eq_refl).
Defined.

(** C3 as stated fails: the candidate has the shape of the schema, its
    Bundle resort lists the spa as included at a price of 50, and the run
    publishes it with [locationType] still Bundle. *)
Lemma bundle_with_priced_inclusion_published :
  conforms extractionSchema (ExtractionResult_json finland) = true
  /\ result (state publishedOnce) = Some (ExtractionResult_json finland)
  /\ resortsOf (ExtractionResult_json finland) = [Resort_json resortX]
  /\ isBundle (Resort_json resortX) = true
  /\ existsb includedAtAPrice (elements "activities" (Resort_json resortX))
     = true
  /\ classificationInvariant (ExtractionResult_json finland) = false.
Proof. repeat split. Qed.

(** C4, as the code has it: a candidate that parses is published, empty
    or not, and no error is reported; the published [locations] has the
    size the candidate's has, so it is not of size 0 when the candidate
    is nonempty. *)
Theorem published_locations_size p n w r candidate :
  nth_error (inflight p) n = Some r ->
  extraction w (run_files r) = inr candidate ->
  let st' := state (handle p (Settle n w)) in
  exists published,
    result st' = Some published
    /\ error st' = error (state p)
    /\ locationsSize published = locationsSize candidate
    /\ (if nonemptyCandidate candidate
        then locationsSize published <> Some 0
        else True).
Proof.
  intros E X st'. subst st'. exists candidate.
  rewrite (handle_Settle p n w r E). cbn [state].
  rewrite (resume_returned w r (state p) candidate X).
  repeat split.
  destruct (nonemptyCandidate candidate) eqn:N; [|exact I].
  apply nonemptyCandidate_size, N.
Qed.

Lemma published_locations_size_witness :
  nth_error (inflight running) 0 = Some brochureRun
  /\ extraction finlandWorld (run_files brochureRun)
     = inr (ExtractionResult_json finland)
  /\ exists published,
       result (state (handle running (Settle 0 finlandWorld)))
       = Some published
       /\ error (state (handle running (Settle 0 finlandWorld)))
          = error (state running)
       /\ locationsSize published
          = locationsSize (ExtractionResult_json finland)
       /\ locationsSize published <> Some 0.
Proof.
  split; [reflexivity|]. split; [reflexivity|].
  exact (published_locations_size running 0 finlandWorld brochureRun
           (ExtractionResult_json finland) eq_refl eq_refl).
Defined.

(** C4 as stated fails: the model answers with no location at all, and
    the run publishes that answer, of size 0, and reports no error. *)
Lemma empty_candidate_published :
  nonemptyCandidate noLocations = false
  /\ result (state noLocationsPublished) = Some noLocations
  /\ locationsSize noLocations = Some 0
  /\ error (state noLocationsPublished) = None.
Proof. repeat split. Qed.

(** ** Starting a run *)

(** C6, as the code has it: with no file in the list [processDocuments]
    returns at once: no state cell changes, no call to the model is
    started, and no error is reported; the run button is disabled. *)
Theorem processDocuments_no_files p :
  files (state p) = [] ->
  processDocuments p = p
  /\ handle p ClickRun = p
  /\ runDisabled (state p) = true.
Proof.
  intros E. unfold handle, runDisabled, processDocuments. rewrite E.
  repeat split.
Qed.

Lemma processDocuments_no_files_witness :
  files (state mounted) = []
  /\ processDocuments mounted = mounted
  /\ handle mounted ClickRun = mounted
  /\ runDisabled (state mounted) = true.
Proof.
  split; [reflexivity|].
  exact (processDocuments_no_files mounted eq_refl).
Defined.

(** C6 as stated fails: called on the empty list, [processDocuments]
    leaves the error cell empty; the caller is handed no error. *)
Lemma empty_batch_no_error :
  files (state mounted) = []
  /\ error (state (processDocuments mounted)) = None
  /\ ~ (exists kind, error (state (processDocuments mounted)) = Some kind).
Proof.
  repeat split. intros [kind H]. discriminate H.
Qed.

(** C5, as the code has it: while a run is in flight the run button is
    disabled, so a click on it does nothing: the state cells and the run
    in flight are as before, and no error is reported. *)
Theorem run_button_disabled_in_flight evs :
  inflight (after evs) <> [] ->
  runDisabled (state (after evs)) = true
  /\ handle (after evs) ClickRun = after evs.
Proof.
  intros NE. pose proof (after_singleFlight evs) as SF.
  unfold singleFlight in SF.
  assert (B : isProcessing (state (after evs)) = true).
  { destruct (inflight (after evs)) as [|r [|r' l]].
    - congruence.
    - apply SF.
    - contradiction. }
  assert (D : runDisabled (state (after evs)) = true).
  { unfold runDisabled. rewrite B. apply orb_true_r. }
  split; [exact D|]. simpl. rewrite D. reflexivity.
Qed.

Lemma run_button_disabled_in_flight_witness :
  inflight (after [upload brochure "k3x9q2m1a"; ClickRun]) <> []
  /\ runDisabled (state (after [upload brochure "k3x9q2m1a"; ClickRun]))
     = true
  /\ handle (after [upload brochure "k3x9q2m1a"; ClickRun]) ClickRun
     = after [upload brochure "k3x9q2m1a"; ClickRun].
Proof.
  assert (NE : inflight (after [upload brochure "k3x9q2m1a"; ClickRun]) <> [])
    by discriminate.
  split; [exact NE|].
  exact (run_button_disabled_in_flight
           [upload brochure "k3x9q2m1a"; ClickRun] NE).
Defined.

(** C5 as stated fails: a click on the run button while a run is in
    flight reports no error; and [processDocuments] called while a run is
    in flight starts a second run and reports no error: when the first run
    then settles, the second is still in flight and the processing flag is
    already down. *)
Lemma second_invocation_accepted :
  inflight running = [brochureRun]
  /\ error (state (handle running ClickRun)) = None
  /\ inflight (processDocuments running) = [brochureRun; brochureRun]
  /\ error (state (processDocuments running)) = None
  /\ inflight (handle (processDocuments running) (Settle 0 finlandWorld))
     = [brochureRun]
  /\ isProcessing
       (state (handle (processDocuments running) (Settle 0 finlandWorld)))
     = false.
Proof. repeat split. Qed.

(** C10: [processDocuments] on a list with files empties the result and
    error cells and only then has its run in flight, the model not yet
    asked; and when a run started from the page fails, the result cell is
    empty: what was published before the run is gone. *)
Theorem processDocuments_clears_result :
  (forall p,
      files (state p) <> [] ->
      result (state (processDocuments p)) = None
      /\ error (state (processDocuments p)) = None
      /\ isProcessing (state (processDocuments p)) = true
      /\ inflight (processDocuments p)
         = inflight p ++ [ {| run_files := files (state p) |} ])
  /\ (forall evs n w r err,
        nth_error (inflight (after evs)) n = Some r ->
        extraction w (run_files r) = inl err ->
        result (state (after evs)) = None
        /\ result (state (handle (after evs) (Settle n w))) = None).
Proof.
  split.
  - intros p NE. unfold processDocuments.
    destruct (files (state p)) as [|f fs] eqn:F; [congruence|].
    simpl. repeat split.
  - intros evs n w r err E X.
    assert (R : result (state (after evs)) = None).
    { pose proof (after_singleFlight evs) as SF. unfold singleFlight in SF.
      destruct (inflight (after evs)) as [|r0 [|r1 l]].
      - destruct n; discriminate E.
      - apply SF.
      - contradiction. }
    split; [exact R|].
    rewrite (handle_Settle (after evs) n w r E). cbn [state].
    rewrite (resume_thrown w r (state (after evs)) err X). exact R.
Qed.

Lemma processDocuments_clears_result_witness :
  result (state publishedOnce) = Some (ExtractionResult_json finland)
  /\ files (state publishedOnce) <> []
  /\ result (state (processDocuments publishedOnce)) = None
  /\ error (state (processDocuments publishedOnce)) = None
  /\ result (state (handle (after rerun) (Settle 0 unreachable))) = None.
Proof.
  assert (NE : files (state publishedOnce) <> []) by discriminate.
  destruct processDocuments_clears_result as [Start Fail].
  destruct (Start publishedOnce NE) as (R & E & _).
  destruct (Fail rerun 0 unreachable
              {| run_files := files (state publishedOnce) |}
              {| message := Some "Failed to fetch" |}
              eq_refl eq_refl) as (_ & G).
  repeat split; assumption.
Defined.

(** ** Currency display *)

(** C8, as the code has it: the token is upper-cased, [USD] standing in
    for a missing or empty one.  A code of three letters formats the
    amount under that code.  A code that is not three code units long
    formats the amount as [USD].  The template string of the original
    token and the amount is returned only for a code of three code units
    that are not all letters.  The function reads and writes no state. *)
Theorem formatCurrency_cases (toUpperCase : string -> string)
    (amount : Q) (currency : option string) :
  let code := currency_code toUpperCase currency in
  formatCurrency toUpperCase amount currency =
  if (String.length code =? 3)%nat
  then if all_letters code
       then IntlCurrency code amount
       else Template currency amount
  else IntlCurrency "USD" amount.
Proof.
  intros code. unfold formatCurrency. fold code.
  destruct (String.length code =? 3)%nat eqn:L.
  - unfold NumberFormat, IsWellFormedCurrencyCode. rewrite L. simpl.
    destruct (all_letters code); reflexivity.
  - reflexivity.
Qed.

Example formatCurrency_EUR :
  formatCurrency ascii_toUpperCase 500%Q (Some "eur")
  = IntlCurrency "EUR" 500%Q.
Proof. reflexivity. Qed.

Example formatCurrency_template :
  formatCurrency ascii_toUpperCase 500%Q (Some "US$")
  = Template (Some "US$") 500%Q.
Proof. reflexivity. Qed.

Example formatCurrency_missing :
  formatCurrency ascii_toUpperCase 500%Q None = IntlCurrency "USD" 500%Q.
Proof. reflexivity. Qed.

(** C8 as stated fails: the tokens [$] and [EURO] are no 3-letter codes,
    and the amount is formatted as US dollars instead of falling back to
    the template string. *)
Lemma symbol_formatted_as_USD :
  formatCurrency ascii_toUpperCase 500%Q (Some "$")
  = IntlCurrency "USD" 500%Q
  /\ formatCurrency ascii_toUpperCase 500%Q (Some "$")
     <> Template (Some "$") 500%Q
  /\ formatCurrency ascii_toUpperCase 500%Q (Some "EURO")
     <> Template (Some "EURO") 500%Q.
Proof. repeat split; discriminate. Qed.

(** ** Reading the files *)

Lemma split_comma_no_comma s : no_comma s = true -> split_comma s = [s].
Proof.
  induction s as [|c s IH]; simpl; [reflexivity|].
  destruct (Ascii.eqb c ","); simpl; [discriminate|].
  intros H. rewrite (IH H). reflexivity.
Qed.

Lemma split_comma_first h rest :
  no_comma h = true ->
  split_comma (h ++ String "," rest)%string = h :: split_comma rest.
Proof.
  induction h as [|c h IH]; simpl.
  - reflexivity.
  - destruct (Ascii.eqb c ","); simpl; [discriminate|].
    intros H. rewrite (IH H). reflexivity.
Qed.

(** X1: [fileToBase64] resolves with what stands between the first comma of
    the data URL and the next one (here: the end). *)
Theorem fileToBase64_payload w f header payload :
  no_comma header = true ->
  no_comma payload = true ->
  readAsDataURL w f = inr (header ++ String "," payload)%string ->
  fileToBase64 w f = inr (Some payload).
Proof.
  intros Hh Hp R. unfold fileToBase64. rewrite R. simpl.
  rewrite (split_comma_first header payload Hh).
  rewrite (split_comma_no_comma payload Hp). reflexivity.
Qed.

Lemma fileToBase64_payload_witness :
  no_comma "data:application/pdf;base64" = true
  /\ no_comma "JVBERi0x" = true
  /\ fileToBase64 unreachable brochure = inr (Some "JVBERi0x").
Proof.
  split; [reflexivity|]. split; [reflexivity|].
  exact (fileToBase64_payload unreachable brochure
           "data:application/pdf;base64" "JVBERi0x"
           eq_refl eq_refl eq_refl).
Defined.

(** X2: A data URL without a comma does not reject the read: [fileToBase64]
    resolves with [undefined], and the run goes on to send a part whose
    data is [undefined]. *)
Theorem fileToBase64_no_comma w f url parts fs :
  no_comma url = true ->
  readAsDataURL w (file f) = inr url ->
  fileToBase64 w (file f) = inr None
  /\ pushFiles w (f :: fs) parts
     = pushFiles w fs (parts ++ [InlineData "application/pdf" None]).
Proof.
  intros Hc R.
  assert (E : fileToBase64 w (file f) = inr None).
  { unfold fileToBase64. rewrite R. simpl.
    rewrite (split_comma_no_comma url Hc). reflexivity. }
  split; [exact E|]. simpl. rewrite E. reflexivity.
Qed.

Lemma fileToBase64_no_comma_witness :
  no_comma "blob:finland" = true
  /\ fileToBase64 bareURL brochure = inr None
  /\ pushFiles bareURL (run_files brochureRun) [TextPart systemPrompt]
     = inr [TextPart systemPrompt; InlineData "application/pdf" None].
Proof.
  split; [reflexivity|].
  exact (fileToBase64_no_comma bareURL
           {| file := brochure; id := "k3x9q2m1a"; status := Status.pending |}
           "blob:finland" [TextPart systemPrompt] [] eq_refl eq_refl).
Defined.

Lemma pushFiles_all_read w fs : forall datas parts,
  Forall2 (fun f d => fileToBase64 w (file f) = inr d) fs datas ->
  pushFiles w fs parts
  = inr (parts ++ map (InlineData "application/pdf") datas).
Proof.
  induction fs as [|f fs IH]; intros datas parts H; inversion H; subst; simpl.
  - rewrite app_nil_r. reflexivity.
  - match goal with E : fileToBase64 _ _ = _ |- _ => rewrite E end.
    simpl. rewrite (IH _ _ ltac:(eassumption)).
    rewrite <- app_assoc. reflexivity.
Qed.

(** X3: When every file reads, the loop leaves the parts it was given in
    front and adds one [application/pdf] part a file, in the order of the
    list: the request holds the prompt and as many parts as files. *)
Theorem pushFiles_parts w fs datas parts :
  Forall2 (fun f d => fileToBase64 w (file f) = inr d) fs datas ->
  exists sent,
    pushFiles w fs parts = inr sent
    /\ sent = parts ++ map (InlineData "application/pdf") datas
    /\ List.length sent = (List.length parts + List.length fs)%nat.
Proof.
  intros H. eexists. split; [apply (pushFiles_all_read w fs datas parts H)|].
  split; [reflexivity|].
  rewrite length_app, length_map.
  apply Forall2_length in H. rewrite H. reflexivity.
Qed.

Lemma pushFiles_parts_witness :
  Forall2 (fun f d => fileToBase64 unreachable (file f) = inr d)
          twoFiles [Some "JVBERi0x"; Some "JVBERi0x"]
  /\ exists sent,
       pushFiles unreachable twoFiles [TextPart systemPrompt] = inr sent
       /\ sent = [TextPart systemPrompt;
                  InlineData "application/pdf" (Some "JVBERi0x");
                  InlineData "application/pdf" (Some "JVBERi0x")]
       /\ List.length sent = 3.
Proof.
  assert (H : Forall2 (fun f d => fileToBase64 unreachable (file f) = inr d)
                      twoFiles [Some "JVBERi0x"; Some "JVBERi0x"]).
  { repeat constructor. }
  split; [exact H|].
  exact (pushFiles_parts unreachable twoFiles
           [Some "JVBERi0x"; Some "JVBERi0x"] [TextPart systemPrompt] H).
Defined.

Lemma pushFiles_app w fs1 : forall fs2 parts,
  pushFiles w (fs1 ++ fs2) parts
  = bind (pushFiles w fs1 parts) (pushFiles w fs2).
Proof.
  induction fs1 as [|f fs1 IH]; intros fs2 parts; simpl; [reflexivity|].
  destruct (fileToBase64 w (file f)) as [e|d]; simpl; [reflexivity|].
  apply IH.
Qed.

(** X4: The first file that cannot be read ends the run: whatever the files
    after it, and whatever the model and [JSON.parse] would answer, what
    the reader handed to [reject] is what the [try] block throws. *)
Theorem first_unreadable_file_decides w readable f rest err datas :
  newGoogleGenAI w = None ->
  Forall2 (fun g d => fileToBase64 w (file g) = inr d) readable datas ->
  readAsDataURL w (file f) = inl err ->
  extraction w (readable ++ f :: rest) = inl err.
Proof.
  intros C Hr Hf. unfold extraction. rewrite C. simpl.
  rewrite pushFiles_app.
  rewrite (pushFiles_all_read w readable datas _ Hr). simpl.
  unfold fileToBase64. rewrite Hf. reflexivity.
Qed.

Lemma first_unreadable_file_decides_witness :
  newGoogleGenAI secondUnreadable = None
  /\ readAsDataURL secondUnreadable priceList = inl {| message := None |}
  /\ extraction secondUnreadable twoFiles = inl {| message := None |}.
Proof.
  split; [reflexivity|]. split; [reflexivity|].
  refine (first_unreadable_file_decides secondUnreadable
            [ {| file := brochure; id := "k3x9q2m1a";
                 status := Status.pending |} ]
            {| file := priceList; id := "w8r2t5y7u";
               status := Status.pending |}
            [] {| message := None |} [Some "JVBERi0x"]
            eq_refl _ eq_refl).
  repeat constructor.
Defined.

Lemma pushFiles_files w fs : forall fs' parts,
  map file fs = map file fs' ->
  pushFiles w fs parts = pushFiles w fs' parts.
Proof.
  induction fs as [|f fs IH]; intros [|f' fs'] parts H; simpl in *;
    try discriminate; [reflexivity|].
  injection H as Hf Hfs. rewrite Hf.
  destruct (fileToBase64 w (file f')) as [e|d]; simpl; [reflexivity|].
  apply IH, Hfs.
Qed.

Lemma map_file_markCompleted fs : map file (map markCompleted fs) = map file fs.
Proof. rewrite map_map. reflexivity. Qed.

(** X5: What a run asks and gets depends on the [File] objects alone, in
    their order: ids and statuses are not sent.  A run over files that an
    earlier run has marked [completed] asks the same as a first run. *)
Theorem extraction_files_only w fs fs' :
  map file fs = map file fs' ->
  extraction w fs = extraction w fs'
  /\ extraction w (map markCompleted fs) = extraction w fs.
Proof.
  intros H. unfold extraction.
  rewrite (pushFiles_files w fs fs' _ H).
  rewrite (pushFiles_files w (map markCompleted fs) fs' _
             (eq_trans (map_file_markCompleted fs) H)).
  split; reflexivity.
Qed.

Lemma extraction_files_only_witness :
  map file (run_files brochureRun) = map file (files (state publishedOnce))
  /\ extraction finlandWorld (run_files brochureRun)
     = extraction finlandWorld (files (state publishedOnce)).
Proof.
  split; [reflexivity|].
  exact (proj1 (extraction_files_only finlandWorld (run_files brochureRun)
                  (files (state publishedOnce)) eq_refl)).
Defined.

Lemma or_else_nonempty a b : b <> "" -> or_else a b <> "".
Proof.
  intros Hb. destruct a as [s|]; simpl; [|exact Hb].
  destruct (String.eqb s "") eqn:E; [exact Hb|].
  apply String.eqb_neq, E.
Qed.

Lemma pushFiles_readers w w' fs : forall parts,
  (forall f, readAsDataURL w f = readAsDataURL w' f) ->
  pushFiles w fs parts = pushFiles w' fs parts.
Proof.
  intros parts H. revert parts.
  induction fs as [|f fs IH]; intros parts; simpl; [reflexivity|].
  unfold fileToBase64. rewrite H.
  destruct (readAsDataURL w' (file f)) as [e|url]; simpl; [reflexivity|].
  apply IH.
Qed.

(** X6: [JSON.parse] is never handed the empty text: a reply without text,
    or with the empty text, is read as [{}].  Two browsers that differ
    only in what [JSON.parse] makes of the empty text give every run the
    same outcome. *)
Theorem empty_text_never_parsed w w' fs :
  (forall f, readAsDataURL w f = readAsDataURL w' f) ->
  newGoogleGenAI w = newGoogleGenAI w' ->
  (forall q, generateContent w q = generateContent w' q) ->
  (forall t, t <> "" -> JSON_parse w t = JSON_parse w' t) ->
  extraction w fs = extraction w' fs.
Proof.
  intros Hr Hc Hg Hp. unfold extraction. rewrite Hc.
  destruct (newGoogleGenAI w') as [e|]; simpl; [reflexivity|].
  rewrite (pushFiles_readers w w' fs _ Hr).
  destruct (pushFiles w' fs [TextPart systemPrompt]) as [e|parts]; simpl;
    [reflexivity|].
  rewrite Hg.
  destruct (generateContent w' (request parts)) as [e|response]; simpl;
    [reflexivity|].
  apply Hp, or_else_nonempty. discriminate.
Qed.

Lemma empty_text_never_parsed_witness :
  (forall t, t <> "" -> JSON_parse bareURL t = JSON_parse lenientParse t)
  /\ JSON_parse bareURL "" <> JSON_parse lenientParse ""
  /\ extraction bareURL (run_files brochureRun)
     = extraction lenientParse (run_files brochureRun).
Proof.
  assert (H : forall t, t <> "" ->
                        JSON_parse bareURL t = JSON_parse lenientParse t).
  { intros t Ht. apply String.eqb_neq in Ht. simpl. rewrite Ht.
    reflexivity. }
  split; [exact H|]. split; [discriminate|].
  exact (empty_text_never_parsed bareURL lenientParse (run_files brochureRun)
           (fun _ => eq_refl) eq_refl (fun _ => eq_refl) H).
Defined.

(** ** One run, one panel *)

Lemma handle_onePanel p e : onePanel p -> onePanel (handle p e).
Proof.
  unfold onePanel. intros H.
  destruct e as [picked|i| |n w| |t|]; simpl; auto.
  - destruct picked; exact H.
  - unfold runDisabled, processDocuments.
    destruct (List.length (files (state p)) =? 0)%nat; simpl; auto.
    destruct (isProcessing (state p)) eqn:B; simpl.
    + destruct (inflight p) as [|r [|r' l]]; rewrite ?B; exact H.
    + destruct (inflight p) as [|r [|r' l]]; simpl.
      * repeat split.
      * destruct H; congruence.
      * contradiction.
  - destruct (inflight p) as [|r [|r' l]] eqn:L.
    + destruct n; simpl; rewrite L; exact H.
    + destruct n as [|n]; simpl.
      * destruct H as (_ & R & E). unfold resume.
        destruct (extraction w (run_files r)); simpl; auto.
      * destruct n; simpl; rewrite L; exact H.
    + contradiction.
  - destruct (inflight p) as [|r [|r' l]]; simpl; intuition.
Qed.

Lemma after_onePanel evs : onePanel (after evs).
Proof.
  apply after_invariant with (I := onePanel).
  - split; [reflexivity | left; reflexivity].
  - intros p e. apply handle_onePanel.
Qed.

(** X7: From the page there is never more than one run in flight, and the
    processing flag is up exactly while there is one. *)
Theorem one_run_in_flight evs :
  (List.length (inflight (after evs)) <= 1)%nat
  /\ (isProcessing (state (after evs)) = true <-> inflight (after evs) <> []).
Proof.
  pose proof (after_singleFlight evs) as SF. unfold singleFlight in SF.
  destruct (inflight (after evs)) as [|r [|r' l]]; simpl.
  - split; [lia|]. rewrite SF. split; [discriminate|congruence].
  - destruct SF as [B _]. split; [lia|]. rewrite B.
    split; [discriminate|reflexivity].
  - contradiction.
Qed.






Lemma passive_keeps_run p e :
  passive e = true ->
  inflight (handle p e) = inflight p
  /\ isProcessing (state (handle p e)) = isProcessing (state p)
  /\ result (state (handle p e)) = result (state p).
Proof.
  destruct e as [picked|i| |n w| |t|]; simpl; try discriminate; intros _;
    repeat split.
  all: destruct picked; reflexivity.
Qed.

Lemma passive_keep_run evs : forall p,
  forallb passive evs = true ->
  inflight (fold_left handle evs p) = inflight p
  /\ isProcessing (state (fold_left handle evs p)) = isProcessing (state p)
  /\ result (state (fold_left handle evs p)) = result (state p).
Proof.
  induction evs as [|e evs IH]; intros p H; simpl in *; [repeat split|].
  apply andb_true_iff in H. destruct H as [He Hevs].
  destruct (IH (handle p e) Hevs) as (A & B & C).
  destruct (passive_keeps_run p e He) as (A' & B' & C').
  repeat split; congruence.
Qed.

(** X10: What a run asks is fixed when it starts.  Files chosen or removed,
    the error reset or the tab changed while the run is in flight leave
    the run as it is; when it then succeeds, its value is published and
    every file then in the list is marked [completed], the files chosen
    in the meantime, which the run did not send, included. *)
Theorem run_fixed_at_start p n w r value meanwhile :
  nth_error (inflight p) n = Some r ->
  forallb passive meanwhile = true ->
  extraction w (run_files r) = inr value ->
  let p' := fold_left handle meanwhile p in
  let p'' := handle p' (Settle n w) in
  nth_error (inflight p') n = Some r
  /\ result (state p'') = Some value
  /\ files (state p'') = map markCompleted (files (state p'))
  /\ Forall (fun f => status f = Status.completed) (files (state p'')).
Proof.
  intros E Hm X p' p''. subst p'' p'.
  destruct (passive_keep_run meanwhile p Hm) as (A & _ & _).
  assert (E' : nth_error (inflight (fold_left handle meanwhile p)) n = Some r)
    by (rewrite A; exact E).
  split; [exact E'|].
  rewrite (handle_Settle _ n w r E'). cbn [state].
  rewrite (resume_returned w r _ value X). simpl.
  repeat split. apply all_markCompleted.
Qed.

Lemma run_fixed_at_start_witness :
  nth_error (inflight running) 0 = Some brochureRun
  /\ forallb passive [upload priceList "w8r2t5y7u"] = true
  /\ extraction finlandWorld (run_files brochureRun)
     = inr (ExtractionResult_json finland)
  /\ map status
       (files (state (handle (handle running (upload priceList "w8r2t5y7u"))
                             (Settle 0 finlandWorld))))
     = [Status.completed; Status.completed].
Proof.
  split; [reflexivity|]. split; [reflexivity|]. split; [reflexivity|].
  destruct (run_fixed_at_start running 0 finlandWorld brochureRun
              (ExtractionResult_json finland)
              [upload priceList "w8r2t5y7u"] eq_refl eq_refl eq_refl)
    as (_ & _ & F & _).
  exact (eq_trans (f_equal (map status) F) eq_refl).
Defined.

(** X11: No handler puts a file back to [pending], and only a run that
    succeeds marks one [completed]: a [pending] file after an event was
    in the list as [pending] before it or has just been chosen, and a
    [completed] file after any event other than a settlement was in the
    list as [completed] before it. *)
Theorem statuses_only_advance p e f :
  In f (files (state (handle p e))) ->
  (status f = Status.pending ->
   In f (files (state p))
   \/ exists picked g, e = ChooseFiles (Some picked) /\ In g picked
                       /\ file f = fst g /\ id f = snd g)
  /\ (status f = Status.completed ->
      In f (files (state p)) \/ exists n w, e = Settle n w).
Proof.
  intros Hin.
  destruct e as [picked|i| |n w| |t|]; simpl in Hin.
  - destruct picked as [fs|]; simpl in Hin.
    + apply in_app_or in Hin. destruct Hin as [Hin|Hin].
      * split; intros _; left; exact Hin.
      * apply in_map_iff in Hin. destruct Hin as (g & Hg & Hgin). subst f.
        split; [|discriminate].
        intros _. right. exists fs, g. repeat split. exact Hgin.
    + split; intros _; left; exact Hin.
  - apply filter_In in Hin. split; intros _; left; apply Hin.
  - assert (Hp : In f (files (state p))).
    { destruct (runDisabled (state p)); [exact Hin|].
      unfold processDocuments in Hin.
      destruct (List.length (files (state p)) =? 0)%nat; exact Hin. }
    split; intros _; left; exact Hp.
  - split.
    + intros Hs. left.
      destruct (nth_error (inflight p) n) as [r|]; [|exact Hin].
      simpl in Hin. unfold resume in Hin.
      destruct (extraction w (run_files r)); simpl in Hin; [exact Hin|].
      apply in_map_iff in Hin. destruct Hin as (g & Hg & _). subst f.
      discriminate Hs.
    + intros _. right. exists n, w. reflexivity.
  - split; intros _; left; exact Hin.
  - split; intros _; left; exact Hin.
  - split; intros _; left; exact Hin.
Qed.

Lemma statuses_only_advance_witness :
  In {| file := brochure; id := "k3x9q2m1a"; status := Status.pending |}
     (files (state (handle mounted (upload brochure "k3x9q2m1a"))))
  /\ exists picked g,
       upload brochure "k3x9q2m1a" = ChooseFiles (Some picked)
       /\ In g picked /\ brochure = fst g /\ "k3x9q2m1a" = snd g.
Proof.
  assert (Hin : In {| file := brochure; id := "k3x9q2m1a";
                      status := Status.pending |}
                   (files (state (handle mounted
                                    (upload brochure "k3x9q2m1a"))))).
  { left. reflexivity. }
  split; [exact Hin|].
  destruct (proj1 (statuses_only_advance mounted
                     (upload brochure "k3x9q2m1a") _ Hin) eq_refl)
    as [[]|H].
  exact H.
Defined.

(** ** Choosing and removing files *)

Lemma filter_id_absent i (l : list FileWithStatus) :
  Forall (fun f => id f <> i) l ->
  filter (fun f => negb (String.eqb (id f) i)) l = l.
Proof.
  induction 1 as [|f l Hf _ IH]; simpl; [reflexivity|].
  apply String.eqb_neq in Hf. rewrite Hf. simpl. rewrite IH. reflexivity.
Qed.

(** X12: Removing a file that was just chosen under an id no other file has
    gives back the state as it was before the choice. *)
Theorem remove_after_choose f i st :
  Forall (fun g => id g <> i) (files st) ->
  removeFile i (onFileChange (Some [(f, i)]) st) = st.
Proof.
  intros H. unfold removeFile, onFileChange, setFiles. simpl.
  rewrite filter_app, (filter_id_absent i (files st) H). simpl.
  rewrite String.eqb_refl. simpl. rewrite app_nil_r.
  destruct st; reflexivity.
Qed.

Lemma remove_after_choose_witness :
  Forall (fun g => id g <> "w8r2t5y7u") (files (state publishedOnce))
  /\ removeFile "w8r2t5y7u"
       (onFileChange (Some [(priceList, "w8r2t5y7u")]) (state publishedOnce))
     = state publishedOnce.
Proof.
  assert (H : Forall (fun g => id g <> "w8r2t5y7u")
                     (files (state publishedOnce))).
  { repeat constructor. discriminate. }
  split; [exact H|].
  exact (remove_after_choose priceList "w8r2t5y7u" (state publishedOnce) H).
Defined.

Lemma filter_filter_comm (A : Type) (f g : A -> bool) (l : list A) :
  filter f (filter g l) = filter g (filter f l).
Proof.
  induction l as [|a l IH]; simpl; [reflexivity|].
  destruct (f a) eqn:F, (g a) eqn:G; simpl; rewrite ?F, ?G, IH; reflexivity.
Qed.

Lemma filter_idem (A : Type) (f : A -> bool) (l : list A) :
  filter f (filter f l) = filter f l.
Proof.
  induction l as [|a l IH]; simpl; [reflexivity|].
  destruct (f a) eqn:F; simpl; rewrite ?F, IH; reflexivity.
Qed.

(** X13: Removals can be made in any order and repeated without effect, and
    an id that no file has removes nothing; a removal never makes the
    list longer. *)
Theorem removeFile_algebra i j st :
  removeFile i (removeFile j st) = removeFile j (removeFile i st)
  /\ removeFile i (removeFile i st) = removeFile i st
  /\ (if existsb (fun f => String.eqb (id f) i) (files st)
      then True else removeFile i st = st)
  /\ (List.length (files (removeFile i st)) <= List.length (files st))%nat.
Proof.
  unfold removeFile, setFiles. simpl. repeat split.
  - rewrite filter_filter_comm. reflexivity.
  - rewrite filter_idem. reflexivity.
  - destruct (existsb (fun f => String.eqb (id f) i) (files st)) eqn:H;
      [exact I|].
    rewrite filter_id_absent; [destruct st; reflexivity|].
    apply Forall_forall. intros f Hf. apply String.eqb_neq.
    destruct (String.eqb (id f) i) eqn:E; [|reflexivity].
    assert (X : existsb (fun f => String.eqb (id f) i) (files st) = true)
      by (apply existsb_exists; exists f; auto).
    congruence.
  - apply filter_length_le.
Qed.

(** ** The schema and the preview *)

Lemma conforms_required props req ms k :
  conforms (OBJECT props req) (JObj ms) = true ->
  In k req -> exists x, assoc k ms = Some x.
Proof.
  simpl. intros H Hk. apply andb_true_iff in H. destruct H as [H _].
  rewrite forallb_forall in H. specialize (H k Hk). unfold present in H.
  destruct (assoc k ms) as [x|]; [exists x; reflexivity|discriminate].
Qed.

Lemma conforms_member props req ms k sk x :
  conforms (OBJECT props req) (JObj ms) = true ->
  In (k, sk) props -> assoc k ms = Some x -> conforms sk x = true.
Proof.
  simpl. intros H Hk Hx. apply andb_true_iff in H. destruct H as [_ H].
  induction props as [|[k' sk'] props IH]; [contradiction|].
  apply andb_true_iff in H. destruct H as [H1 H2].
  destruct Hk as [Hk|Hk].
  - injection Hk as -> ->. rewrite Hx in H1. exact H1.
  - apply IH; assumption.
Qed.

Lemma conforms_object_inv props req v :
  conforms (OBJECT props req) v = true -> exists ms, v = JObj ms.
Proof. destruct v; simpl; try discriminate. eauto. Qed.

Lemma conforms_array_inv s v :
  conforms (ARRAY s) v = true ->
  exists l, v = JArr l /\ forallb (conforms s) l = true.
Proof. destruct v; simpl; try discriminate. eauto. Qed.

Lemma conforms_string_child d e v :
  conforms (STRING d e) v = true -> validChild v = true.
Proof. destruct v, e; simpl; try discriminate; reflexivity. Qed.

(** A required string member of a conforming object is a valid child. *)
Lemma conforms_childOf props req v k d e :
  conforms (OBJECT props req) v = true ->
  In (k, STRING d e) props ->
  childOf k v = true.
Proof.
  intros H Hk. destruct (conforms_object_inv props req v H) as [ms ->].
  unfold childOf. simpl. destruct (assoc k ms) as [x|] eqn:A; [|reflexivity].
  apply (conforms_string_child d e).
  apply (conforms_member props req ms k (STRING d e) x H Hk A).
Qed.

(** A required array member of a conforming object can be mapped over
    when the body accepts every conforming element. *)
Lemma conforms_mapOver props req v k s body :
  conforms (OBJECT props req) v = true ->
  In (k, ARRAY s) props -> In k req ->
  (forall x, conforms s x = true -> body x = true) ->
  mapOver k v body = true.
Proof.
  intros H Hk Hr Hb. destruct (conforms_object_inv props req v H) as [ms ->].
  destruct (conforms_required props req ms k H Hr) as [x A].
  pose proof (conforms_member props req ms k (ARRAY s) x H Hk A) as Hx.
  destruct (conforms_array_inv s x Hx) as (l & -> & Hl).
  unfold mapOver. simpl. rewrite A.
  rewrite forallb_forall in *. intros y Hy. apply Hb, Hl, Hy.
Qed.

Lemma conforms_notNull props req v :
  conforms (OBJECT props req) v = true -> notNull v = true.
Proof.
  intros H. destruct (conforms_object_inv props req v H) as [ms ->].
  reflexivity.
Qed.

Lemma previewRoom_conforms room :
  conforms roomSchema room = true -> previewRoom room = true.
Proof.
  intros H. unfold previewRoom.
  rewrite (conforms_notNull _ _ room H).
  rewrite (conforms_childOf _ _ room "type" (Some "Room/Package Name") None H);
    [reflexivity|].
  simpl; auto.
Qed.

Lemma previewActivity_conforms act :
  conforms activitySchema act = true -> previewActivity act = true.
Proof.
  intros H. unfold previewActivity.
  rewrite (conforms_notNull _ _ act H).
  rewrite (conforms_childOf _ _ act "name" (Some "Activity/Service Name")
             None H); [reflexivity|].
  simpl; auto.
Qed.

Lemma previewResort_conforms resort :
  conforms resortSchema resort = true -> previewResort resort = true.
Proof.
  intros H. unfold previewResort.
  rewrite (conforms_notNull _ _ resort H).
  rewrite (conforms_childOf _ _ resort "resortName" None None H)
    by (simpl; auto).
  rewrite (conforms_childOf _ _ resort "locationType" None
             (Some ["Component"; "Bundle"]) H) by (simpl; auto 6).
  rewrite (conforms_childOf _ _ resort "currency"
             (Some "3-letter ISO code or symbol") None H) by (simpl; auto).
  rewrite (conforms_mapOver _ _ resort "rooms" roomSchema previewRoom H)
    by (simpl; auto 8 using previewRoom_conforms).
  rewrite (conforms_mapOver _ _ resort "activities" activitySchema
             previewActivity H)
    by (simpl; auto 8 using previewActivity_conforms).
  reflexivity.
Qed.

Lemma previewLocation_conforms loc :
  conforms locationSchema loc = true -> previewLocation loc = true.
Proof.
  intros H. unfold previewLocation.
  rewrite (conforms_notNull _ _ loc H).
  rewrite (conforms_childOf _ _ loc "name"
             (Some "Location Name (e.g., Maldives, Finland)") None H)
    by (simpl; auto).
  rewrite (conforms_mapOver _ _ loc "resorts" resortSchema previewResort H)
    by (simpl; auto using previewResort_conforms).
  reflexivity.
Qed.

(** X14: A published value that has the shape of the response schema is
    rendered by the preview without a throw: every array the preview maps
    over is there, and every member it renders as a child is a string. *)
Theorem conforming_result_renders v :
  conforms extractionSchema v = true -> previewRenders v = true.
Proof.
  intros H. unfold previewRenders.
  apply (conforms_mapOver _ _ v "locations" locationSchema previewLocation H).
  - left. reflexivity.
  - left. reflexivity.
  - apply previewLocation_conforms.
Qed.

Lemma conforming_result_renders_witness :
  conforms extractionSchema (ExtractionResult_json finland) = true
  /\ previewRenders (ExtractionResult_json finland) = true.
Proof.
  split; [reflexivity|].
  exact (conforming_result_renders (ExtractionResult_json finland) eq_refl).
Defined.

(** X15: Every value of the declared type [ExtractionResult] has the shape of
    the response schema sent to the model, and the preview renders it. *)
Theorem declared_type_fits_schema (e : ExtractionResult) :
  conforms extractionSchema (ExtractionResult_json e) = true
  /\ previewRenders (ExtractionResult_json e) = true.
Proof.
  split; [apply ExtractionResult_conforms|].
  unfold previewRenders, mapOver, ExtractionResult_json. simpl.
  apply forallb_forall. intros x Hx.
  apply in_map_iff in Hx. destruct Hx as (l & <- & _).
  apply previewLocation_conforms, LocationData_conforms.
Qed.

(** X16: A reply without text, or with the empty text, is published as the
    empty object: the file list is marked [completed], the result panel
    is rendered, and with the preview tab active it throws on the missing
    [locations]. *)
Theorem reply_without_text p n w r parts response :
  nth_error (inflight p) n = Some r ->
  newGoogleGenAI w = None ->
  pushFiles w (run_files r) [TextPart systemPrompt] = inr parts ->
  generateContent w (request parts) = inr response ->
  or_else (text response) "" = "" ->
  JSON_parse w "{}" = inr (JObj []) ->
  let st' := state (handle p (Settle n w)) in
  result st' = Some (JObj [])
  /\ resultShown st' = true
  /\ resultPanelRenders st'
     = match activeTab (state p) with preview => false | json => true end
  /\ Forall (fun f => status f = Status.completed) (files st').
Proof.
  intros E C P G T J st'. subst st'.
  assert (X : extraction w (run_files r) = inr (JObj [])).
  { rewrite (extraction_stages w (run_files r) parts response C P G).
    replace (or_else (text response) "{}") with "{}"; [exact J|].
    destruct (text response) as [t|]; simpl in *; [|reflexivity].
    destruct (String.eqb t "") eqn:Q; [reflexivity|].
    subst t. discriminate Q. }
  rewrite (handle_Settle p n w r E). cbn [state].
  rewrite (resume_returned w r (state p) (JObj []) X).
  unfold resultPanelRenders. simpl.
  split; [reflexivity|]. split; [reflexivity|].
  split; [destruct (activeTab (state p)); reflexivity|].
  apply all_markCompleted.
Qed.

Lemma reply_without_text_witness :
  nth_error (inflight running) 0 = Some brochureRun
  /\ JSON_parse bareURL "{}" = inr (JObj [])
  /\ result (state (handle running (Settle 0 bareURL))) = Some (JObj [])
  /\ resultPanelRenders (state (handle running (Settle 0 bareURL))) = false.
Proof.
  split; [reflexivity|]. split; [reflexivity|].
  destruct (reply_without_text running 0 bareURL brochureRun
              [TextPart systemPrompt; InlineData "application/pdf" None]
              {| text := None |}
              eq_refl eq_refl eq_refl eq_refl eq_refl eq_refl)
    as (A & _ & B & _).
  split; [exact A | exact B].
Defined.

(** ** Currency codes in ASCII *)

Lemma ascii_upper_letter c :
  is_ascii_letter c = true -> is_ascii_letter (ascii_upper c) = true.
Proof.
  destruct c as [[] [] [] [] [] [] [] []]; vm_compute; intros H;
    solve [reflexivity | discriminate H].
Qed.

Lemma ascii_toUpperCase_length s :
  String.length (ascii_toUpperCase s) = String.length s.
Proof. induction s as [|c s IH]; simpl; [reflexivity|]. rewrite IH. reflexivity. Qed.

Lemma ascii_toUpperCase_letters s :
  all_letters s = true -> all_letters (ascii_toUpperCase s) = true.
Proof.
  induction s as [|c s IH]; simpl; [reflexivity|].
  intros H. apply andb_true_iff in H. destruct H as [Hc Hs].
  rewrite (ascii_upper_letter c Hc), (IH Hs). reflexivity.
Qed.

(** X17: A token of three ASCII letters, in either case, is formatted under
    its upper-case code: the template string and [USD] are not used. *)
Theorem formatCurrency_three_letters amount token :
  String.length token = 3 ->
  all_letters token = true ->
  formatCurrency ascii_toUpperCase amount (Some token)
  = IntlCurrency (ascii_toUpperCase token) amount.
Proof.
  intros L A. unfold formatCurrency, currency_code. simpl.
  assert (N : String.eqb (ascii_toUpperCase token) "" = false).
  { apply String.eqb_neq. intros E.
    pose proof (ascii_toUpperCase_length token) as Hl.
    rewrite E, L in Hl. discriminate Hl. }
  rewrite N, ascii_toUpperCase_length, L. simpl.
  unfold NumberFormat, IsWellFormedCurrencyCode.
  rewrite ascii_toUpperCase_length, L, (ascii_toUpperCase_letters token A).
  reflexivity.
Qed.

Lemma formatCurrency_three_letters_witness :
  String.length "eUr" = 3
  /\ all_letters "eUr" = true
  /\ formatCurrency ascii_toUpperCase 500%Q (Some "eUr")
     = IntlCurrency "EUR" 500%Q.
Proof.
  split; [reflexivity|]. split; [reflexivity|].
  exact (formatCurrency_three_letters 500%Q "eUr" eq_refl eq_refl).
Defined.

(** ** Resetting after a failure *)

(** X18: The reset button of the error panel, clicked after a failed run,
    brings the standby panel back: the error is cleared, nothing is
    published, and the files are those the run was started with in the
    list, untouched. *)
Theorem reset_after_failure evs n w r err :
  nth_error (inflight (after evs)) n = Some r ->
  extraction w (run_files r) = inl err ->
  let p' := handle (handle (after evs) (Settle n w)) ClickReset in
  standbyShown (state p') = true
  /\ error (state p') = None
  /\ result (state p') = None
  /\ files (state p') = files (state (after evs)).
Proof.
  intros E X p'. subst p'.
  pose proof (after_onePanel evs) as H. unfold onePanel in H.
  rewrite (handle_Settle (after evs) n w r E).
  unfold handle. cbn [state].
  rewrite (resume_thrown w r (state (after evs)) err X).
  unfold standbyShown, resultShown, errorShown. simpl.
  destruct (inflight (after evs)) as [|r0 [|r1 l]].
  - destruct n; discriminate E.
  - destruct H as (_ & R & _). rewrite R. repeat split.
  - contradiction.
Qed.

Lemma reset_after_failure_witness :
  nth_error (inflight (after [upload brochure "k3x9q2m1a"; ClickRun])) 0
  = Some brochureRun
  /\ extraction unreachable (run_files brochureRun)
     = inl {| message := Some "Failed to fetch" |}
  /\ standbyShown (state (handle failedOnce ClickReset)) = true
  /\ error (state (handle failedOnce ClickReset)) = None.
Proof.
  split; [reflexivity|]. split; [reflexivity|].
  destruct (reset_after_failure
              [upload brochure "k3x9q2m1a"; ClickRun] 0 unreachable
              brochureRun {| message := Some "Failed to fetch" |}
              eq_refl eq_refl) as (A & B & _).
  split; [exact A | exact B].
Defined.
